(** * Procurement recommendation service: a shallow embedding of [main.py]

    The service is one HTTP route that calls a search provider, turns the
    first five organic results into supplier entries, renders a prompt,
    calls a chat-completion provider and returns a JSON object.

    Python values are an inductive type, a Python [str] is the byte string
    of its UTF-8 encoding, a [dict] is an association list in insertion
    order (keys distinct, lookup takes the first binding).  The two
    providers are functions of an abstract world state; every outbound call
    is appended to a log carried next to the world, so that the number and
    the arguments of the calls can be stated.  Exceptions are results, with
    [try]/[except] as a combinator. *)

From Stdlib Require Import ZArith List String Ascii Bool Lia PrimFloat DecimalString.
Import ListNotations.
Open Scope string_scope.
Open Scope Z_scope.

(** ** Python values *)

#[local] Set Warnings "-register-all,-inexact-float".

Inductive pyval : Type :=
| PyNone
| PyBool (b : bool)
| PyInt (z : Z)
| PyFloat (f : float)
| PyStr (s : string)
| PyList (l : list pyval)
| PyDict (d : list (string * pyval)).

Definition pydict : Type := list (string * pyval).

(** [type(v).__name__] *)
Definition type_name (v : pyval) : string :=
  match v with
  | PyNone => "NoneType"
  | PyBool _ => "bool"
  | PyInt _ => "int"
  | PyFloat _ => "float"
  | PyStr _ => "str"
  | PyList _ => "list"
  | PyDict _ => "dict"
  end.

(** An instance of a subclass of [Exception] raised by the interpreter or
    by a provider's client library: its class name and [str(e)]. *)
Record py_exception : Type := PyExc { exc_class : string; exc_text : string }.

(** What can leave the request handler: an [HTTPException] built by the
    service, or any other exception travelling up unchanged. *)
Inductive handler_exn : Type :=
| HTTPException (status_code : Z) (detail : string)
| Uncaught (e : py_exception).

Inductive result (E A : Type) : Type :=
| Ok (a : A)
| Raise (e : E).
Arguments Ok {E A} a.
Arguments Raise {E A} e.

(** ** Dictionaries and the interpreter's operations on values *)

Fixpoint dict_lookup (k : string) (d : pydict) : option pyval :=
  match d with
  | [] => None
  | (k', v) :: d' => if String.eqb k k' then Some v else dict_lookup k d'
  end.

(** [d.get(k, default)] on a dict *)
Definition dict_get (d : pydict) (k : string) (default : pyval) : pyval :=
  match dict_lookup k d with
  | Some v => v
  | None => default
  end.

(** [v.get(k)] on an arbitrary value: only a dict has the method. *)
Definition py_get (v : pyval) (k : string) : result py_exception pyval :=
  match v with
  | PyDict d => Ok (dict_get d k PyNone)
  | _ => Raise (PyExc "AttributeError"
                  ("'" ++ type_name v ++ "' object has no attribute 'get'"))
  end.

(** [v[k]] with a string key.  Texts are CPython 3.11's. *)
Definition py_getitem (v : pyval) (k : string) : result py_exception pyval :=
  match v with
  | PyDict d =>
      match dict_lookup k d with
      | Some x => Ok x
      | None => Raise (PyExc "KeyError" ("'" ++ k ++ "'"))
      end
  | PyList _ =>
      Raise (PyExc "TypeError" "list indices must be integers or slices, not str")
  | PyStr _ =>
      Raise (PyExc "TypeError" "string indices must be integers, not 'str'")
  | _ => Raise (PyExc "TypeError"
                  ("'" ++ type_name v ++ "' object is not subscriptable"))
  end.

(** The one-character strings of a string, one for each byte here: the
    only loop that walks them raises on the first, so that nothing but
    the emptiness of the string is ever seen. *)
Definition chars (s : string) : list pyval :=
  map (fun c => PyStr (String c EmptyString)) (list_ascii_of_string s).

(** The items a [for] loop sees in [v[:n]].  A list gives its first [n]
    items, a string its first [n] characters as one-character strings;
    nothing else can be sliced.  Texts are CPython 3.11's. *)
Definition py_slice_to (v : pyval) (n : nat) : result py_exception (list pyval) :=
  match v with
  | PyList l => Ok (firstn n l)
  | PyStr s => Ok (firstn n (chars s))
  | PyDict _ => Raise (PyExc "TypeError" "unhashable type: 'slice'")
  | _ => Raise (PyExc "TypeError"
                  ("'" ++ type_name v ++ "' object is not subscriptable"))
  end.

(** [str(z)] for an int *)
Definition str_of_int (z : Z) : string := NilZero.string_of_int (Z.to_int z).

Definition nl : string := String "010" EmptyString.

(** ** Requests to the providers and what they answer *)

(** The dict handed to [GoogleSearch]. *)
Record search_params : Type := SearchParams {
  q : string;
  api_key : option string;
  num : Z
}.

Record chat_message : Type := ChatMessage {
  role : string;
  content : string
}.

(** The keyword arguments of [client.chat.completions.create]. *)
Record completion_params : Type := CompletionParams {
  model : string;
  messages : list chat_message;
  temperature : float;
  max_tokens : Z
}.

(** The part of the completion object the service reads:
    [chat_completion.choices[i].message.content], an optional string. *)
Record chat_completion : Type := ChatCompletion {
  choices : list (option string)
}.

(** An outbound call, as logged. *)
Inductive call : Type :=
| SearchCall (p : search_params)
| CompletionCall (p : completion_params).

Definition is_search (c : call) : bool :=
  match c with SearchCall _ => true | CompletionCall _ => false end.

Definition is_completion (c : call) : bool :=
  match c with SearchCall _ => false | CompletionCall _ => true end.

(** ** The request model *)

Record ProcurementRequest : Type := {
  material_name : string;
  quantity : Z;
  location : string;
  budget : float
}.

(** What the client of the route gets back from the framework: the
    handler's value with status 200, an [HTTPException] as its status and
    detail, a body that does not validate as 422, any other exception as
    the framework's own 500. *)
Inductive http_response : Type :=
| JSON200 (body : pyval)
| HTTPError (status_code : Z) (detail : string)
| Unprocessable422
| ServerError500 (e : py_exception).

Definition status_of (r : http_response) : Z :=
  match r with
  | JSON200 _ => 200
  | HTTPError c _ => c
  | Unprocessable422 => 422
  | ServerError500 _ => 500
  end.

Definition respond (r : result handler_exn pyval) : http_response :=
  match r with
  | Ok v => JSON200 v
  | Raise (HTTPException c d) => HTTPError c d
  | Raise (Uncaught e) => ServerError500 e
  end.

(** ** What the module takes from its surroundings

    The interpreter's [repr] for floats and containers; the outside world
    and the two providers, each call of which reads and may change the
    world and either returns or raises; the value of
    [os.getenv("SERPAPI_KEY")]; and the framework's validators for the
    annotations [str], [int] and [float] of the request model (which JSON
    values each accepts, and how it coerces them, is the framework's
    business). *)
Record Environment : Type := {
  World : Type;
  py_repr : pyval -> string;
  serpapi_get_dict :
    search_params -> World -> result py_exception pydict * World;
  groq_create :
    completion_params -> World -> result py_exception chat_completion * World;
  SERPAPI_KEY : option string;
  validate_str : pyval -> option string;
  validate_int : pyval -> option Z;
  validate_float : pyval -> option float
}.

(** The world and the log of outbound calls. *)
Record state (env : Environment) : Type := State {
  world : World env;
  calls : list call
}.
Arguments State {env} world calls.
Arguments world {env} s.
Arguments calls {env} s.

Section Service.

Variable env : Environment.

(** [str(v)], which is what an f-string field without a format
    specification renders. *)
Definition py_str (v : pyval) : string :=
  match v with
  | PyNone => "None"
  | PyBool true => "True"
  | PyBool false => "False"
  | PyInt z => str_of_int z
  | PyStr s => s
  | _ => py_repr env v
  end.

(** *** State and exceptions *)

Definition M (E A : Type) : Type := state env -> result E A * state env.

Definition ret {E A} (a : A) : M E A := fun st => (Ok a, st).

Definition raise {E A} (e : E) : M E A := fun st => (Raise e, st).

Definition bind {E A B} (m : M E A) (k : A -> M E B) : M E B :=
  fun st =>
    match m st with
    | (Ok a, st') => k a st'
    | (Raise e, st') => (Raise e, st')
    end.

(** [try: m except Exception as e: h e] *)
Definition try_except {E E' A} (m : M E A) (h : E -> M E' A) : M E' A :=
  fun st =>
    match m st with
    | (Ok a, st') => (Ok a, st')
    | (Raise e, st') => h e st'
    end.

(** A computation of the interpreter alone. *)
Definition pure {E A} (r : result E A) : M E A := fun st => (r, st).

(** A computation whose exceptions the handler does not catch. *)
Definition uncaught {A} (m : M py_exception A) : M handler_exn A :=
  try_except m (fun e => raise (Uncaught e)).

Notation "x <- m ;; k" := (bind m (fun x => k))
  (at level 100, m at next level, right associativity).

Fixpoint for_each {E A B} (f : A -> M E B) (l : list A) : M E (list B) :=
  match l with
  | [] => ret []
  | a :: l' =>
      b <- f a ;;
      bs <- for_each f l' ;;
      ret (b :: bs)
  end.

(** *** The providers, with the call logged *)

Definition GoogleSearch_get_dict (p : search_params) : M py_exception pydict :=
  fun st =>
    let (r, w) := serpapi_get_dict env p (world st) in
    (r, State w (calls st ++ [SearchCall p])).

Definition chat_completions_create (p : completion_params)
  : M py_exception chat_completion :=
  fun st =>
    let (r, w) := groq_create env p (world st) in
    (r, State w (calls st ++ [CompletionCall p])).

(** *** get_supplier_data *)

Definition supplier_entry (res : pyval) : M py_exception pyval :=
  title <- pure (py_get res "title") ;;
  link <- pure (py_get res "link") ;;
  snippet <- pure (py_get res "snippet") ;;
  ret (PyDict [("title", title); ("link", link); ("snippet", snippet)]).

Definition search_query (material location : string) : string :=
  material ++ " suppliers in " ++ location.

Definition get_supplier_data (material location : string)
  : M handler_exn (list pyval) :=
  try_except
    (let query := search_query material location in
     results <- GoogleSearch_get_dict (SearchParams query (SERPAPI_KEY env) 5) ;;
     let organic := dict_get results "organic_results" (PyList []) in
     items <- pure (py_slice_to organic 5) ;;
     for_each supplier_entry items)
    (fun e => raise (HTTPException 500 ("SERPAPI error: " ++ exc_text e))).

(** *** generate_recommendation *)

Definition supplier_line (s : pyval) : M py_exception string :=
  title <- pure (py_getitem s "title") ;;
  link <- pure (py_getitem s "link") ;;
  snippet <- pure (py_getitem s "snippet") ;;
  ret ("- " ++ py_str title ++ ": " ++ py_str link
         ++ " (" ++ py_str snippet ++ ")").

Definition prompt_text (material : string) (quantity : Z) (location : string)
    (budget : float) (supplier_summary : string) : string :=
  nl ++
  "    You are an AI procurement strategist for POWERGRID." ++ nl ++
  "    Analyze the following inputs and recommend a procurement plan." ++ nl ++
  nl ++
  "    Material: " ++ material ++ nl ++
  "    Required Quantity: " ++ py_str (PyInt quantity) ++ nl ++
  "    Project Location: " ++ location ++ nl ++
  "    Budget: â‚¹" ++ py_str (PyFloat budget) ++ nl ++
  nl ++
  "    Available supplier data:" ++ nl ++
  "    " ++ supplier_summary ++ nl ++
  nl ++
  "    Provide:" ++ nl ++
  "    1. Top 3 suppliers ranked by relevance." ++ nl ++
  "    2. Recommended order quantity split (if applicable)." ++ nl ++
  "    3. Estimated total cost and delivery timeframe." ++ nl ++
  "    4. Any risk factors or negotiation suggestions." ++ nl ++
  "    ".

(** The two statements that build the prompt. *)
Definition build_prompt (material : string) (quantity : Z)
    (location : string) (budget : float) (suppliers : list pyval)
  : M py_exception string :=
  lines <- for_each supplier_line suppliers ;;
  let supplier_summary := String.concat nl lines in
  ret (prompt_text material quantity location budget supplier_summary).

Definition system_message : chat_message :=
  ChatMessage "system" "You are an expert AI procurement assistant.".

(** The literal [0.7] denotes the binary64 number nearest to it, here
    as in Python. *)
Definition completion_request (prompt : string) : completion_params :=
  CompletionParams "llama-3.1-8b-instant"
    [system_message; ChatMessage "user" prompt]
    0.7%float
    800.

(** [choices[0]] *)
Definition first_choice (c : chat_completion)
  : result py_exception (option string) :=
  match choices c with
  | x :: _ => Ok x
  | [] => Raise (PyExc "IndexError" "list index out of range")
  end.

Definition py_of_content (c : option string) : pyval :=
  match c with
  | Some s => PyStr s
  | None => PyNone
  end.

Definition generate_recommendation (material : string) (quantity : Z)
    (location : string) (budget : float) (suppliers : list pyval)
  : M py_exception pyval :=
  prompt <- build_prompt material quantity location budget suppliers ;;
  chat_completion <- chat_completions_create (completion_request prompt) ;;
  choice <- pure (first_choice chat_completion) ;;
  ret (py_of_content choice).

(** *** The route *)

(** [not suppliers] *)
Definition is_empty {A} (l : list A) : bool :=
  match l with [] => true | _ :: _ => false end.

Definition recommend_procurement (request : ProcurementRequest)
  : M handler_exn pyval :=
  suppliers <- get_supplier_data (material_name request) (location request) ;;
  if is_empty suppliers then
    raise (HTTPException 404 "No suppliers found.")
  else
    recommendation <-
      uncaught (generate_recommendation (material_name request)
                  (quantity request) (location request) (budget request)
                  suppliers) ;;
    ret (PyDict [("material", PyStr (material_name request));
                 ("location", PyStr (location request));
                 ("budget", PyFloat (budget request));
                 ("recommendation", recommendation);
                 ("top_suppliers", PyList suppliers)]).




End Service.

Arguments ret {env E A} a.
Arguments raise {env E A} e.
Arguments bind {env E A B} m k.
Arguments try_except {env E E' A} m h.
Arguments pure {env E A} r.
Arguments uncaught {env A} m.
Arguments for_each {env E A B} f l.

(** ** The shape of a supplier entry

    [get_supplier_data] builds dicts with exactly the keys [title],
    [link] and [snippet]; the statements below name that shape. *)
Record SupplierResult : Type := {
  title : pyval;
  link : pyval;
  snippet : pyval
}.

Definition supplier_dict (r : SupplierResult) : pyval :=
  PyDict [("title", title r); ("link", link r); ("snippet", snippet r)].

(** The entry of an organic result: each field is [res.get(key)]. *)
Definition supplier_of (res : pydict) : SupplierResult :=
  {| title := dict_get res "title" PyNone;
     link := dict_get res "link" PyNone;
     snippet := dict_get res "snippet" PyNone |}.

(** The line of the prompt that shows one supplier. *)
Definition bullet (env : Environment) (r : SupplierResult) : string :=
  "- " ++ py_str env (title r) ++ ": " ++ py_str env (link r)
    ++ " (" ++ py_str env (snippet r) ++ ")".

(** The JSON object of a successful response. *)
Definition response_body (request : ProcurementRequest)
    (recommendation : pyval) (suppliers : list pyval) : pyval :=
  PyDict [("material", PyStr (material_name request));
          ("location", PyStr (location request));
          ("budget", PyFloat (budget request));
          ("recommendation", recommendation);
          ("top_suppliers", PyList suppliers)].

(** [v[k]] when it is there. *)
Definition py_field (v : pyval) (k : string) : option pyval :=
  match v with
  | PyDict d => dict_lookup k d
  | _ => None
  end.

(** The prompt, part by part and line by line. *)
Definition instruction : list string :=
  ["    You are an AI procurement strategist for POWERGRID.";
   "    Analyze the following inputs and recommend a procurement plan."].

Definition input_echo (env : Environment) (material : string) (quantity : Z)
    (location : string) (budget : float) : list string :=
  ["    Material: " ++ material;
   "    Required Quantity: " ++ str_of_int quantity;
   "    Project Location: " ++ location;
   "    Budget: â‚¹" ++ py_repr env (PyFloat budget)].

Definition supplier_bullets (env : Environment) (rs : list SupplierResult)
  : list string :=
  map (bullet env) rs.

Definition checklist : list string :=
  ["    1. Top 3 suppliers ranked by relevance.";
   "    2. Recommended order quantity split (if applicable).";
   "    3. Estimated total cost and delivery timeframe.";
   "    4. Any risk factors or negotiation suggestions."].

Definition prompt_layout (env : Environment) (material : string)
    (quantity : Z) (location : string) (budget : float)
    (rs : list SupplierResult) : string :=
  String.concat nl
    ([""] ++ instruction ++
     [""] ++ input_echo env material quantity location budget ++
     [""; "    Available supplier data:";
      "    " ++ String.concat nl (supplier_bullets env rs);
      ""; "    Provide:"] ++ checklist ++
     ["    "]).



(** The one search request of a lookup, and the exception a failed
    lookup raises. *)
Definition search_request (env : Environment) (material location : string)
  : search_params :=
  SearchParams (material ++ " suppliers in " ++ location) (SERPAPI_KEY env) 5.

Definition upstream_error (e : py_exception) : handler_exn :=
  HTTPException 500 ("SERPAPI error: " ++ exc_text e).

(** ** A scripted environment

    A world that holds the answers the two providers will give, strict
    validators, and a [repr] that knows the one float of the scenario. *)
Module Scenario.

Record script : Type := Script {
  search_answer : result py_exception pydict;
  completion_answer : result py_exception chat_completion
}.

Definition strict_str (v : pyval) : option string :=
  match v with PyStr s => Some s | _ => None end.

Definition strict_int (v : pyval) : option Z :=
  match v with PyInt z => Some z | _ => None end.

Definition strict_float (v : pyval) : option float :=
  match v with PyFloat f => Some f | _ => None end.

Definition repr (v : pyval) : string :=
  match v with
  | PyFloat f => if PrimFloat.eqb f 200000%float then "200000.0" else "<float>"
  | _ => "<object>"
  end.

Definition env : Environment := {|
  World := script;
  py_repr := repr;
  serpapi_get_dict := fun _ w => (search_answer w, w);
  groq_create := fun _ w => (completion_answer w, w);
  SERPAPI_KEY := Some "serp-key";
  validate_str := strict_str;
  validate_int := strict_int;
  validate_float := strict_float
|}.

Definition organic_dict (n : string) : pydict :=
  [("position", PyStr n);
   ("title", PyStr ("Supplier " ++ n));
   ("link", PyStr ("https://example.com/" ++ n));
   ("snippet", PyStr ("Copper cable from supplier " ++ n))].

Definition organic_result (n : string) : pyval := PyDict (organic_dict n).

Definition three_dicts : list pydict :=
  [organic_dict "1"; organic_dict "2"; organic_dict "3"].

Definition three_results : pydict :=
  [("search_metadata", PyDict [("status", PyStr "Success")]);
   ("organic_results", PyList (map PyDict three_dicts))].

Definition answer (text : option string) : chat_completion :=
  ChatCompletion [text].

Definition request : ProcurementRequest :=
  {| material_name := "copper cable"; quantity := 500;
     location := "Pune"; budget := 200000%float |}.

Definition start (s : script) : state env := State (s : World env) [].

(** Three results and an answer. *)
Definition normal : script :=
  Script (Ok three_results) (Ok (answer (Some "Order from Supplier 1."))).

(** Three results and a completion whose text is empty. *)
Definition silent : script :=
  Script (Ok three_results) (Ok (answer (Some ""))).

(** A search without organic results. *)
Definition no_results : script :=
  Script (Ok [("search_metadata", PyDict [("status", PyStr "Success")]);
              ("organic_results", PyList [])])
         (Ok (answer (Some "Order from Supplier 1."))).

(** A search provider that cannot be reached. *)
Definition search_down : script :=
  Script (Raise (PyExc "ConnectionError" "connection refused"))
         (Ok (answer (Some "Order from Supplier 1."))).

(** A completion provider that cannot be reached. *)
Definition completion_down : script :=
  Script (Ok three_results)
         (Raise (PyExc "APIConnectionError" "Connection error.")).

(** Seven results; the second has no snippet, the third nothing at all. *)
Definition sparse_results : pydict :=
  [("organic_results",
    PyList [organic_result "1";
            PyDict [("title", PyStr "Supplier 2");
                    ("link", PyStr "https://example.com/2")];
            PyDict [];
            organic_result "4"; organic_result "5"; organic_result "6";
            organic_result "7"])].

Definition sparse : script :=
  Script (Ok sparse_results) (Ok (answer (Some "Order from Supplier 1."))).

(** An answer whose organic_results is null, one whose first result is
    a string, and a completion without choices. *)
Definition null_results : script :=
  Script (Ok [("organic_results", PyNone)])
         (Ok (answer (Some "Order from Supplier 1."))).

Definition string_result : script :=
  Script (Ok [("organic_results", PyList [PyStr "Supplier 1"])])
         (Ok (answer (Some "Order from Supplier 1."))).

Definition no_choices : script :=
  Script (Ok three_results) (Ok (ChatCompletion [])).

(** Five results followed by two items that are not objects. *)
Definition junk_after_five : pydict :=
  [("organic_results",
    PyList (map PyDict [organic_dict "1"; organic_dict "2"; organic_dict "3";
                        organic_dict "4"; organic_dict "5"]
            ++ [PyNone; PyStr "advertisement"])%list)].

Definition long : script :=
  Script (Ok junk_after_five) (Ok (answer (Some "Order from Supplier 1."))).

(** A result that is a number, after one that is an object. *)
Definition second_is_number : script :=
  Script (Ok [("organic_results",
               PyList (map PyDict [organic_dict "1"]
                       ++ PyInt 7 :: [organic_result "3"])%list)])
         (Ok (answer (Some "Order from Supplier 1."))).

(** What a run returned, when it returned. *)
Definition returned {E A} (default : A) (r : result E A) : A :=
  match r with
  | Ok a => a
  | Raise _ => default
  end.




End Scenario.

(** ** Properties *)

Section Properties.

Variable env : Environment.

Lemma supplier_entry_dict (d : pydict) (st : state env) :
  supplier_entry env (PyDict d) st = (Ok (supplier_dict (supplier_of d)), st).
Proof. reflexivity. Qed.

Lemma supplier_entry_inv (res s : pyval) (st st' : state env) :
  supplier_entry env res st = (Ok s, st') ->
  st' = st /\ exists d, res = PyDict d /\ s = supplier_dict (supplier_of d).
Proof.
  destruct res; cbn; intros H; try discriminate.
  inversion H; subst. split; [reflexivity | eauto].
Qed.

Lemma supplier_entry_state (res : pyval) (st : state env) :
  snd (supplier_entry env res st) = st.
Proof. destruct res; reflexivity. Qed.

Lemma for_each_supplier_entry (ds : list pydict) (st : state env) :
  for_each (supplier_entry env) (map PyDict ds) st
  = (Ok (map (fun d => supplier_dict (supplier_of d)) ds), st).
Proof.
  induction ds as [|d ds IH]; cbn [map for_each]; [reflexivity|].
  unfold bind at 1. rewrite supplier_entry_dict.
  unfold bind at 1. rewrite IH. reflexivity.
Qed.

Lemma for_each_supplier_entry_state (items : list pyval) (st : state env) :
  snd (for_each (supplier_entry env) items st) = st.
Proof.
  induction items as [|res items IH]; cbn [for_each]; [reflexivity|].
  unfold bind at 1.
  pose proof (supplier_entry_state res st) as Hs.
  destruct (supplier_entry env res st) as [[s|e] st1]; cbn in Hs; subst st1;
    [|reflexivity].
  unfold bind at 1. specialize (IH).
  destruct (for_each (supplier_entry env) items st) as [[ss|e] st2];
    cbn in IH; subst st2; reflexivity.
Qed.

Lemma for_each_supplier_entry_inv (items sups : list pyval) (st st' : state env) :
  for_each (supplier_entry env) items st = (Ok sups, st') ->
  exists ds, items = map PyDict ds
             /\ sups = map (fun d => supplier_dict (supplier_of d)) ds.
Proof.
  revert sups st'.
  induction items as [|res items IH]; cbn [for_each]; intros sups st' H.
  - inversion H; subst. exists []. split; reflexivity.
  - unfold bind at 1 in H.
    destruct (supplier_entry env res st) as [[s|e] st1] eqn:Hres;
      [|discriminate].
    apply supplier_entry_inv in Hres as [-> (d & -> & ->)].
    unfold bind at 1 in H.
    destruct (for_each (supplier_entry env) items st) as [[ss|e] st2] eqn:Hrest;
      [|discriminate].
    destruct (IH _ _ eq_refl) as (ds & -> & ->).
    inversion H; subst. exists (d :: ds). split; reflexivity.
Qed.

Lemma for_each_supplier_line (rs : list SupplierResult) (st : state env) :
  for_each (supplier_line env) (map supplier_dict rs) st
  = (Ok (map (bullet env) rs), st).
Proof.
  induction rs as [|r rs IH]; cbn [map for_each]; [reflexivity|].
  unfold bind at 1. replace (supplier_line env (supplier_dict r) st)
    with (@Ok py_exception _ (bullet env r), st) by reflexivity.
  unfold bind at 1. rewrite IH. reflexivity.
Qed.

(** *** get_supplier_data, step by step *)

Lemma get_supplier_data_unfold (material location : string) (st : state env) :
  get_supplier_data env material location st =
  let p := search_request env material location in
  match serpapi_get_dict env p (world st) with
  | (Ok results, w) =>
      let st1 := State w (calls st ++ [SearchCall p]) in
      match py_slice_to (dict_get results "organic_results" (PyList [])) 5 with
      | Ok items =>
          match for_each (supplier_entry env) items st1 with
          | (Ok sups, st2) => (Ok sups, st2)
          | (Raise e, st2) => (Raise (upstream_error e), st2)
          end
      | Raise e => (Raise (upstream_error e), st1)
      end
  | (Raise e, w) =>
      (Raise (upstream_error e), State w (calls st ++ [SearchCall p]))
  end.
Proof.
  unfold get_supplier_data, search_request, search_query, try_except,
    GoogleSearch_get_dict.
  unfold bind at 1. cbn zeta.
  destruct (serpapi_get_dict env _ (world st)) as [[results|e] w];
    [|reflexivity].
  unfold bind at 1, pure.
  destruct (py_slice_to _ 5) as [items|e]; reflexivity.
Qed.

(** The search answered with a list of dicts: the entries of the first
    five, and one search call logged. *)
Lemma get_supplier_data_organic (material location : string)
    (st : state env) (results : pydict) (w : World env) (ds : list pydict) :
  serpapi_get_dict env (search_request env material location) (world st)
    = (Ok results, w) ->
  dict_get results "organic_results" (PyList []) = PyList (map PyDict ds) ->
  get_supplier_data env material location st
  = (Ok (map (fun d => supplier_dict (supplier_of d)) (firstn 5 ds)),
     State w (calls st ++ [SearchCall (search_request env material location)])).
Proof.
  intros Hs Ho. rewrite get_supplier_data_unfold. cbn zeta.
  rewrite Hs, Ho. cbn [py_slice_to].
  rewrite firstn_map, for_each_supplier_entry. reflexivity.
Qed.

(** Whatever it returns or raises, exactly one search call is logged. *)
Lemma get_supplier_data_calls (material location : string) (st : state env) :
  exists w,
    snd (get_supplier_data env material location st)
    = State w (calls st ++ [SearchCall (search_request env material location)]).
Proof.
  rewrite get_supplier_data_unfold. cbn zeta.
  destruct (serpapi_get_dict env _ (world st)) as [[results|e] w];
    [|exists w; reflexivity].
  exists w.
  destruct (py_slice_to _ 5) as [items|e]; [|reflexivity].
  pose proof (for_each_supplier_entry_state items
    (State w (calls st ++ [SearchCall (search_request env material location)])))
    as Hst.
  destruct (for_each (supplier_entry env) items _) as [[sups|e] st2];
    cbn [snd] in *; exact Hst.
Qed.

(** A list that [get_supplier_data] returned came from a search that
    answered, and holds the entries of the items the loop saw. *)
Lemma get_supplier_data_inv (material location : string)
    (st st1 : state env) (sups : list pyval) :
  get_supplier_data env material location st = (Ok sups, st1) ->
  exists results w ds,
    serpapi_get_dict env (search_request env material location) (world st)
      = (Ok results, w)
    /\ py_slice_to (dict_get results "organic_results" (PyList [])) 5
       = Ok (map PyDict ds)
    /\ sups = map (fun d => supplier_dict (supplier_of d)) ds
    /\ st1 = State w (calls st ++ [SearchCall (search_request env material location)]).
Proof.
  intros H. rewrite get_supplier_data_unfold in H. cbn zeta in H.
  destruct (serpapi_get_dict env _ (world st)) as [[results|e] w] eqn:Hs;
    [|discriminate].
  destruct (py_slice_to _ 5) as [items|e] eqn:Hi; [|discriminate].
  destruct (for_each (supplier_entry env) items _) as [[ss|e] st2] eqn:Hf;
    [|discriminate].
  pose proof (for_each_supplier_entry_state items
    (State w (calls st ++ [SearchCall (search_request env material location)])))
    as Hst.
  rewrite Hf in Hst. cbn [snd] in Hst.
  apply for_each_supplier_entry_inv in Hf as (ds & Hitems & Hss).
  inversion H; subst. exists results, w, ds. auto.
Qed.

(** *** generate_recommendation, step by step *)

Lemma append_assoc (a b c : string) : (a ++ b) ++ c = a ++ b ++ c.
Proof. induction a as [|x a IH]; cbn; [reflexivity | now rewrite IH]. Qed.

Lemma prompt_text_layout (material : string) (quantity : Z)
    (location : string) (budget : float) (rs : list SupplierResult) :
  prompt_text env material quantity location budget
    (String.concat nl (map (bullet env) rs))
  = prompt_layout env material quantity location budget rs.
Proof.
  unfold prompt_text, prompt_layout, instruction, input_echo, checklist,
    supplier_bullets.
  cbn [app String.concat py_str].
  rewrite !append_assoc. reflexivity.
Qed.

Lemma build_prompt_suppliers (material : string) (quantity : Z)
    (location : string) (budget : float) (rs : list SupplierResult)
    (st : state env) :
  build_prompt env material quantity location budget (map supplier_dict rs) st
  = (Ok (prompt_layout env material quantity location budget rs), st).
Proof.
  unfold build_prompt, bind. rewrite for_each_supplier_line.
  unfold ret. now rewrite prompt_text_layout.
Qed.

Lemma generate_recommendation_unfold (material : string) (quantity : Z)
    (location : string) (budget : float) (rs : list SupplierResult)
    (st : state env) :
  generate_recommendation env material quantity location budget
    (map supplier_dict rs) st =
  let p := completion_request
             (prompt_layout env material quantity location budget rs) in
  match groq_create env p (world st) with
  | (Ok c, w) =>
      let st1 := State w (calls st ++ [CompletionCall p]) in
      match choices c with
      | text :: _ => (Ok (py_of_content text), st1)
      | [] => (Raise (PyExc "IndexError" "list index out of range"), st1)
      end
  | (Raise e, w) => (Raise e, State w (calls st ++ [CompletionCall p]))
  end.
Proof.
  unfold generate_recommendation. unfold bind at 1.
  rewrite build_prompt_suppliers. unfold bind at 1.
  unfold chat_completions_create. cbn zeta.
  destruct (groq_create env _ (world st)) as [[c|e] w]; [|reflexivity].
  unfold bind, pure, first_choice, ret.
  destruct (choices c); reflexivity.
Qed.

(** *** The handler, step by step *)

Lemma recommend_procurement_unfold (request : ProcurementRequest)
    (st : state env) :
  recommend_procurement env request st =
  match get_supplier_data env (material_name request) (location request) st with
  | (Ok suppliers, st1) =>
      match suppliers with
      | [] => (Raise (HTTPException 404 "No suppliers found."), st1)
      | _ :: _ =>
          match generate_recommendation env (material_name request)
                  (quantity request) (location request) (budget request)
                  suppliers st1 with
          | (Ok recommendation, st2) =>
              (Ok (response_body request recommendation suppliers), st2)
          | (Raise e, st2) => (Raise (Uncaught e), st2)
          end
      end
  | (Raise e, st1) => (Raise e, st1)
  end.
Proof.
  unfold recommend_procurement. unfold bind at 1.
  destruct (get_supplier_data env _ _ st) as [[suppliers|e] st1];
    [|reflexivity].
  destruct suppliers as [|s suppliers]; cbn [is_empty]; [reflexivity|].
  unfold bind, uncaught, try_except, raise, ret.
  destruct (generate_recommendation env _ _ _ _ _ st1) as [[r|e] st2];
    reflexivity.
Qed.

Lemma entries_as_supplier_dicts (ds : list pydict) :
  map (fun d => supplier_dict (supplier_of d)) ds
  = map supplier_dict (map supplier_of ds).
Proof. now rewrite map_map. Qed.

(** *** Supplier lookup *)

Lemma recommend_procurement_calls (request : ProcurementRequest)
    (st : state env) :
  exists w rest,
    snd (recommend_procurement env request st)
    = State w (calls st ++
                 SearchCall (search_request env (material_name request)
                               (location request)) :: rest)
    /\ filter is_search rest = [].
Proof.
  rewrite recommend_procurement_unfold.
  destruct (get_supplier_data_calls (material_name request)
              (location request) st) as [w Hw].
  destruct (get_supplier_data env _ _ st) as [[sups|e] st1] eqn:Hg;
    cbn [snd] in Hw; subst st1.
  - destruct sups as [|s sups'] eqn:Hs.
    + exists w, []. split; reflexivity.
    + rewrite <- Hs in *.
      destruct (get_supplier_data_inv _ _ _ _ _ Hg)
        as (results & w0 & ds & _ & _ & Hsups & _).
      rewrite Hsups, entries_as_supplier_dicts.
      rewrite generate_recommendation_unfold. cbn zeta. cbn [world calls].
      destruct (groq_create env _ w) as [[c|e] w1];
        [destruct (choices c)|];
        eexists; eexists; cbn [snd]; rewrite <- app_assoc;
        (split; [reflexivity | reflexivity]).
  - exists w, []. split; reflexivity.
Qed.

(** C6: whatever the provider answers, a supplier lookup logs exactly one
    outbound call, a search whose query is the material, the text
    " suppliers in " and the location; it neither repeats the call nor
    asks for a further page, and the handler as a whole makes this one
    search call and no other. *)
Theorem lookup_issues_one_search (request : ProcurementRequest)
    (st : state env) :
  let search :=
    SearchCall (SearchParams
                  (material_name request ++ " suppliers in " ++ location request)
                  (SERPAPI_KEY env) 5) in
  (exists r w,
     get_supplier_data env (material_name request) (location request) st
     = (r, State w (calls st ++ [search])))
  /\ (exists w rest,
        snd (recommend_procurement env request st)
        = State w (calls st ++ search :: rest)
        /\ filter is_search rest = []).
Proof.
  intros search. split.
  - destruct (get_supplier_data_calls (material_name request)
                (location request) st) as [w Hw].
    destruct (get_supplier_data env _ _ st) as [r st1] eqn:Hr.
    cbn [snd] in Hw. subst st1. exists r, w. reflexivity.
  - apply recommend_procurement_calls.
Qed.

(** C3: when the search call raises, the lookup raises an HTTPException
    with status 500 whose detail ends in the text of the exception, the
    handler raises the same, and the completion provider is not called. *)
Theorem search_failure_is_500 (request : ProcurementRequest)
    (st : state env) (e : py_exception) (w : World env) :
  serpapi_get_dict env
    (search_request env (material_name request) (location request))
    (world st) = (Raise e, w) ->
  let st1 := State w (calls st ++
               [SearchCall (search_request env (material_name request)
                              (location request))]) in
  get_supplier_data env (material_name request) (location request) st
    = (Raise (HTTPException 500 ("SERPAPI error: " ++ exc_text e)), st1)
  /\ recommend_procurement env request st
    = (Raise (HTTPException 500 ("SERPAPI error: " ++ exc_text e)), st1)
  /\ status_of (respond (fst (recommend_procurement env request st))) = 500
  /\ filter is_completion (calls st1) = filter is_completion (calls st).
Proof.
  intros Hs st1.
  assert (Hg : get_supplier_data env (material_name request)
                 (location request) st
               = (Raise (upstream_error e), st1)).
  { rewrite get_supplier_data_unfold. cbn zeta. now rewrite Hs. }
  split; [exact Hg|]. split.
  - rewrite recommend_procurement_unfold, Hg. reflexivity.
  - split.
    + rewrite recommend_procurement_unfold, Hg. reflexivity.
    + subst st1. cbn [calls]. rewrite filter_app. cbn. apply app_nil_r.
Qed.

(** *** The handler *)

(** C2: when the search answers with no organic results (the key is
    absent or holds the empty list), the handler raises the
    HTTPException with status 404 and detail "No suppliers found.", and
    the only call it has made is the search: the completion provider is
    not called. *)
Theorem no_results_is_404 (request : ProcurementRequest)
    (st : state env) (results : pydict) (w : World env) :
  serpapi_get_dict env
    (search_request env (material_name request) (location request))
    (world st) = (Ok results, w) ->
  dict_get results "organic_results" (PyList []) = PyList [] ->
  let st1 := State w (calls st ++
               [SearchCall (search_request env (material_name request)
                              (location request))]) in
  recommend_procurement env request st
    = (Raise (HTTPException 404 "No suppliers found."), st1)
  /\ respond (fst (recommend_procurement env request st))
     = HTTPError 404 "No suppliers found."
  /\ filter is_completion (calls st1) = filter is_completion (calls st).
Proof.
  intros Hs Ho st1.
  assert (Hr : recommend_procurement env request st
               = (Raise (HTTPException 404 "No suppliers found."), st1)).
  { rewrite recommend_procurement_unfold.
    rewrite (get_supplier_data_organic _ _ st results w [] Hs Ho).
    reflexivity. }
  split; [exact Hr|]. split.
  - rewrite Hr. reflexivity.
  - subst st1. cbn [calls]. rewrite filter_app. cbn. apply app_nil_r.
Qed.

(** C1: when the search answers with a list of n organic results, each a
    JSON object, and the handler returns a body (the 200 response), the
    body's top_suppliers is a list of min(5, n) entries, and the i-th
    entry's title, link and snippet are those of the i-th organic result,
    None standing for a key the result does not have. *)
Theorem top_suppliers_follow_results (request : ProcurementRequest)
    (st st' : state env) (results : pydict) (w : World env)
    (ds : list pydict) (body : pyval) :
  serpapi_get_dict env
    (search_request env (material_name request) (location request))
    (world st) = (Ok results, w) ->
  dict_lookup "organic_results" results = Some (PyList (map PyDict ds)) ->
  (1 <= List.length ds)%nat ->
  recommend_procurement env request st = (Ok body, st') ->
  exists sups,
    py_field body "top_suppliers" = Some (PyList sups)
    /\ List.length sups = Nat.min 5 (List.length ds)
    /\ forall i, (i < List.length sups)%nat ->
         exists s d,
           nth_error sups i = Some s /\ nth_error ds i = Some d
           /\ py_field s "title" = Some (dict_get d "title" PyNone)
           /\ py_field s "link" = Some (dict_get d "link" PyNone)
           /\ py_field s "snippet" = Some (dict_get d "snippet" PyNone).
Proof.
  intros Hs Ho _ Hr.
  assert (Ho' : dict_get results "organic_results" (PyList [])
                = PyList (map PyDict ds)).
  { unfold dict_get. now rewrite Ho. }
  rewrite recommend_procurement_unfold in Hr.
  rewrite (get_supplier_data_organic _ _ st results w ds Hs Ho') in Hr.
  remember (map (fun d => supplier_dict (supplier_of d)) (firstn 5 ds))
    as sups eqn:Hsups.
  assert (Hlen : List.length sups = Nat.min 5 (List.length ds)).
  { subst sups. now rewrite length_map, length_firstn. }
  exists sups.
  destruct sups as [|s0 sups']; [discriminate|].
  destruct (generate_recommendation env _ _ _ _ _ _) as [[r|e] st2];
    [|discriminate].
  inversion Hr; subst body st'. split; [reflexivity|]. split; [exact Hlen|].
  intros i Hi. rewrite Hlen in Hi.
  assert (Hi5 : (i <? 5)%nat = true) by (apply Nat.ltb_lt; lia).
  assert (Hin : (i < List.length ds)%nat) by lia.
  destruct (nth_error ds i) as [d|] eqn:Hd;
    [|apply nth_error_Some in Hin; contradiction].
  exists (supplier_dict (supplier_of d)), d.
  split; [|repeat split; reflexivity].
  rewrite Hsups.
  apply (map_nth_error (fun d => supplier_dict (supplier_of d))).
  now rewrite nth_error_firstn, Hi5.
Qed.

(** C4: when the lookup has returned suppliers, the prompt is built and
    the completion call raises, the handler raises that very exception:
    it is not caught and not turned into an HTTPException, and no body
    is returned; the framework answers with its own 500. *)
Theorem completion_failure_propagates (request : ProcurementRequest)
    (st st1 : state env) (sups : list pyval) (prompt : string)
    (e : py_exception) (w : World env) :
  get_supplier_data env (material_name request) (location request) st
    = (Ok sups, st1) ->
  sups <> [] ->
  build_prompt env (material_name request) (quantity request)
    (location request) (budget request) sups st1 = (Ok prompt, st1) ->
  groq_create env (completion_request prompt) (world st1) = (Raise e, w) ->
  recommend_procurement env request st
    = (Raise (Uncaught e),
       State w (calls st1 ++ [CompletionCall (completion_request prompt)]))
  /\ respond (fst (recommend_procurement env request st)) = ServerError500 e.
Proof.
  intros Hg Hne Hp Hc.
  assert (Hr : recommend_procurement env request st
               = (Raise (Uncaught e),
                  State w (calls st1 ++
                             [CompletionCall (completion_request prompt)]))).
  { rewrite recommend_procurement_unfold, Hg.
    destruct sups as [|s sups']; [contradiction|].
    destruct (get_supplier_data_inv _ _ _ _ _ Hg)
      as (results & w0 & ds & _ & _ & Hsups & _).
    rewrite Hsups, entries_as_supplier_dicts in Hp |- *.
    rewrite build_prompt_suppliers in Hp. inversion Hp as [Hprompt].
    rewrite generate_recommendation_unfold. cbn zeta.
    rewrite Hprompt, Hc. reflexivity. }
  split; [exact Hr | now rewrite Hr].
Qed.

Lemma recommend_procurement_ok_inv (request : ProcurementRequest)
    (st st' : state env) (body : pyval) :
  recommend_procurement env request st = (Ok body, st') ->
  exists sups st1 prompt completion text rest w,
    get_supplier_data env (material_name request) (location request) st
      = (Ok sups, st1)
    /\ groq_create env (completion_request prompt) (world st1)
       = (Ok completion, w)
    /\ choices completion = text :: rest
    /\ body = response_body request (py_of_content text) sups.
Proof.
  intros Hr. rewrite recommend_procurement_unfold in Hr.
  destruct (get_supplier_data env _ _ st) as [[sups|e] st1] eqn:Hg;
    [|discriminate].
  destruct sups as [|s sups'] eqn:Hs; [discriminate|]. rewrite <- Hs in *.
  destruct (get_supplier_data_inv _ _ _ _ _ Hg)
    as (results & w0 & ds & _ & _ & Hsups & _).
  rewrite Hsups, entries_as_supplier_dicts in Hr.
  rewrite generate_recommendation_unfold in Hr. cbn zeta in Hr.
  destruct (groq_create env _ (world st1)) as [[c|e] w] eqn:Hc;
    [|discriminate].
  destruct (choices c) as [|text rest] eqn:Hch; [discriminate|].
  inversion Hr; subst body st'.
  exists sups, st1. eexists. exists c, text, rest, w.
  split; [reflexivity|]. split; [exact Hc|]. split; [exact Hch|].
  now rewrite <- entries_as_supplier_dicts, <- Hsups.
Qed.

(** C5: a body the handler returns has material, location and budget
    equal to the request's material_name, location and budget,
    top_suppliers equal to the list the lookup returned, and
    recommendation equal to the content of the first choice of the
    completion, as it came. *)
Theorem success_body_is_verbatim (request : ProcurementRequest)
    (st st' : state env) (body : pyval) :
  recommend_procurement env request st = (Ok body, st') ->
  exists sups st1 prompt completion text rest w,
    get_supplier_data env (material_name request) (location request) st
      = (Ok sups, st1)
    /\ groq_create env (completion_request prompt) (world st1)
       = (Ok completion, w)
    /\ choices completion = text :: rest
    /\ body = PyDict [("material", PyStr (material_name request));
                      ("location", PyStr (location request));
                      ("budget", PyFloat (budget request));
                      ("recommendation", py_of_content text);
                      ("top_suppliers", PyList sups)].
Proof.
  intros Hr.
  destruct (recommend_procurement_ok_inv _ _ _ _ Hr)
    as (sups & st1 & prompt & c & text & rest & w & Hg & Hc & Hch & Hb).
  exists sups, st1, prompt, c, text, rest, w. auto.
Qed.

(** *** The recommendation generator *)

(** C7: for all request fields and every list of supplier entries, the
    generator logs exactly one outbound call, a completion with the model
    "llama-3.1-8b-instant", temperature 0.7, at most 800 tokens, the fixed
    system message and one user message: the prompt laid out as the
    instruction, the echo of material, quantity, location and budget, one
    bullet "- title: link (snippet)" for each supplier, and the checklist
    of four items. *)
Theorem generator_makes_one_fixed_call (material : string) (quantity : Z)
    (location : string) (budget : float) (rs : list SupplierResult)
    (st : state env) :
  (exists r w,
     generate_recommendation env material quantity location budget
       (map supplier_dict rs) st
     = (r, State w (calls st ++
              [CompletionCall
                 (CompletionParams "llama-3.1-8b-instant"
                    [ChatMessage "system"
                       "You are an expert AI procurement assistant.";
                     ChatMessage "user"
                       (prompt_layout env material quantity location
                          budget rs)]
                    0.7%float 800)])))
  /\ supplier_bullets env rs
     = map (fun r => "- " ++ py_str env (title r) ++ ": "
                       ++ py_str env (link r) ++ " ("
                       ++ py_str env (snippet r) ++ ")") rs
  /\ List.length (supplier_bullets env rs) = List.length rs
  /\ List.length checklist = 4%nat.
Proof.
  split; [|split; [reflexivity | split;
             [apply length_map | reflexivity]]].
  rewrite generate_recommendation_unfold. cbn zeta.
  destruct (groq_create env _ (world st)) as [[c|e] w].
  - destruct (choices c); eexists; exists w; reflexivity.
  - eexists; exists w; reflexivity.
Qed.

(** *** Validation of the body *)








(** *** Absent fields *)

Lemma absent_field_is_None (d : pydict) (k : string) :
  In k ["title"; "link"; "snippet"] -> dict_lookup k d = None ->
  py_field (supplier_dict (supplier_of d)) k = Some PyNone.
Proof.
  intros [<- | [<- | [<- | []]]] Hk; cbn; unfold dict_get; now rewrite Hk.
Qed.

(** C10: in a list that the lookup returned, the entry of an organic result
    has the three keys, with None under each key the result does not have;
    building the prompt from such a list raises nothing, KeyError
    included, and a field that is None is written as the text "None". *)
Theorem absent_fields_are_None (material location : string)
    (st st1 : state env) (sups : list pyval) :
  get_supplier_data env material location st = (Ok sups, st1) ->
  exists results w ds,
    serpapi_get_dict env (search_request env material location) (world st)
      = (Ok results, w)
    /\ py_slice_to (dict_get results "organic_results" (PyList [])) 5
       = Ok (map PyDict ds)
    /\ List.length sups = List.length ds
    /\ (forall i d, nth_error ds i = Some d ->
          exists s,
            nth_error sups i = Some s
            /\ (forall k, In k ["title"; "link"; "snippet"] ->
                  py_field s k = Some (dict_get d k PyNone))
            /\ (forall k, In k ["title"; "link"; "snippet"] ->
                  dict_lookup k d = None ->
                  py_field s k = Some PyNone
                  /\ py_str env (dict_get d k PyNone) = "None"))
    /\ (forall m n l b st2,
          build_prompt env m n l b sups st2
          = (Ok (prompt_layout env m n l b (map supplier_of ds)), st2))
    /\ bullet env (supplier_of []) = "- None: None (None)".
Proof.
  intros Hg.
  destruct (get_supplier_data_inv _ _ _ _ _ Hg)
    as (results & w & ds & Hs & Hi & Hsups & _).
  exists results, w, ds. split; [exact Hs|]. split; [exact Hi|].
  split; [subst sups; apply length_map|].
  split; [|split; [|reflexivity]].
  - intros i d Hd. exists (supplier_dict (supplier_of d)).
    split; [|split].
    + subst sups.
      now apply (map_nth_error (fun d => supplier_dict (supplier_of d))).
    + intros k [<- | [<- | [<- | []]]]; reflexivity.
    + intros k Hk Hnone. split; [now apply absent_field_is_None|].
      unfold dict_get. now rewrite Hnone.
  - intros m n l b st2. subst sups.
    rewrite entries_as_supplier_dicts. apply build_prompt_suppliers.
Qed.

(** *** The scenario *)

(** C9, as the code has it: for the request with material "copper cable",
    quantity 500, location "Pune" and budget 200000, a search that answers
    with three organic results and a completion whose first choice holds a
    text that is not empty, the handler returns a body whose top_suppliers
    has length 3, whose material, location and budget are those of the
    request and whose recommendation is that text; and the recommendation
    of any body the handler returns is the content of the first choice of a
    completion the provider gave, as it came. *)
Theorem scenario_response (st : state env) (results : pydict)
    (w1 w2 : World env) (d1 d2 d3 : pydict) (text : string)
    (rest : list (option string)) :
  serpapi_get_dict env
    (SearchParams "copper cable suppliers in Pune" (SERPAPI_KEY env) 5)
    (world st) = (Ok results, w1) ->
  dict_lookup "organic_results" results
    = Some (PyList [PyDict d1; PyDict d2; PyDict d3]) ->
  groq_create env
    (completion_request
       (prompt_layout env "copper cable" 500 "Pune" 200000%float
          (map supplier_of [d1; d2; d3]))) w1
    = (Ok (ChatCompletion (Some text :: rest)), w2) ->
  text <> "" ->
  (exists body st' sups,
     recommend_procurement env Scenario.request st = (Ok body, st')
     /\ py_field body "top_suppliers" = Some (PyList sups)
     /\ List.length sups = 3%nat
     /\ py_field body "material" = Some (PyStr "copper cable")
     /\ py_field body "location" = Some (PyStr "Pune")
     /\ py_field body "budget" = Some (PyFloat 200000%float)
     /\ py_field body "recommendation" = Some (PyStr text))
  /\ (forall request st0 st0' body,
        recommend_procurement env request st0 = (Ok body, st0') ->
        exists prompt w w' completion content others,
          groq_create env (completion_request prompt) w = (Ok completion, w')
          /\ choices completion = content :: others
          /\ py_field body "recommendation" = Some (py_of_content content)).
Proof.
  intros Hs Ho Hc Htext. split.
  - assert (Ho' : dict_get results "organic_results" (PyList [])
                  = PyList (map PyDict [d1; d2; d3])).
    { unfold dict_get. now rewrite Ho. }
    pose proof (get_supplier_data_organic "copper cable" "Pune" st results w1
                  [d1; d2; d3] Hs Ho') as Hg.
    cbn [firstn map] in Hg.
    eexists. eexists. eexists. split.
    + rewrite recommend_procurement_unfold.
      change (material_name Scenario.request) with "copper cable".
      change (location Scenario.request) with "Pune".
      rewrite Hg.
      change [supplier_dict (supplier_of d1); supplier_dict (supplier_of d2);
              supplier_dict (supplier_of d3)]
        with (map supplier_dict (map supplier_of [d1; d2; d3])).
      rewrite generate_recommendation_unfold. cbn zeta.
      change (quantity Scenario.request) with 500.
      change (budget Scenario.request) with 200000%float.
      cbn [world]. rewrite Hc. cbn [choices py_of_content]. reflexivity.
    + repeat split; reflexivity.
  - intros request st0 st0' body Hr.
    destruct (recommend_procurement_ok_inv _ _ _ _ Hr)
      as (sups & st1 & prompt & c & content & others & w & _ & Hcall & Hch & ->).
    exists prompt, (world st1), w, c, content, others.
    split; [exact Hcall|]. split; [exact Hch | reflexivity].
Qed.

End Properties.


(** ** The theorems at the scripted environment *)

(** The scenario of three results: the body has the three entries. *)
Lemma top_suppliers_follow_results_witness :
  exists sups,
    py_field
      (Scenario.returned PyNone
         (fst (recommend_procurement Scenario.env Scenario.request
                 (Scenario.start Scenario.normal))))
      "top_suppliers" = Some (PyList sups)
    /\ List.length sups = Nat.min 5 3
    /\ forall i, (i < List.length sups)%nat ->
         exists s d,
           nth_error sups i = Some s
           /\ nth_error Scenario.three_dicts i = Some d
           /\ py_field s "title" = Some (dict_get d "title" PyNone)
           /\ py_field s "link" = Some (dict_get d "link" PyNone)
           /\ py_field s "snippet" = Some (dict_get d "snippet" PyNone).
Proof.
  apply (top_suppliers_follow_results Scenario.env Scenario.request
           (Scenario.start Scenario.normal)
           (snd (recommend_procurement Scenario.env Scenario.request
                   (Scenario.start Scenario.normal)))
           Scenario.three_results Scenario.normal Scenario.three_dicts
           (Scenario.returned PyNone
              (fst (recommend_procurement Scenario.env Scenario.request
                      (Scenario.start Scenario.normal))))).
  - reflexivity.
  - reflexivity.
  - simpl. lia.
  - reflexivity.
Defined.

(** No organic results: 404. *)
Lemma no_results_is_404_witness :
  respond (fst (recommend_procurement Scenario.env Scenario.request
                  (Scenario.start Scenario.no_results)))
  = HTTPError 404 "No suppliers found.".
Proof.
  apply (no_results_is_404 Scenario.env Scenario.request
           (Scenario.start Scenario.no_results)
           [("search_metadata", PyDict [("status", PyStr "Success")]);
            ("organic_results", PyList [])]
           Scenario.no_results).
  - reflexivity.
  - reflexivity.
Defined.

(** The search provider cannot be reached: 500, with the text. *)
Lemma search_failure_is_500_witness :
  recommend_procurement Scenario.env Scenario.request
    (Scenario.start Scenario.search_down)
  = (Raise (HTTPException 500 "SERPAPI error: connection refused"),
     State (Scenario.search_down : World Scenario.env)
       [SearchCall (SearchParams "copper cable suppliers in Pune"
                      (Some "serp-key") 5)]).
Proof.
  apply (search_failure_is_500 Scenario.env Scenario.request
           (Scenario.start Scenario.search_down)
           (PyExc "ConnectionError" "connection refused")
           Scenario.search_down).
  reflexivity.
Defined.

(** The completion provider cannot be reached: the exception leaves the
    handler as it is. *)
Lemma completion_failure_propagates_witness :
  respond (fst (recommend_procurement Scenario.env Scenario.request
                  (Scenario.start Scenario.completion_down)))
  = ServerError500 (PyExc "APIConnectionError" "Connection error.").
Proof.
  apply (completion_failure_propagates Scenario.env Scenario.request
           (Scenario.start Scenario.completion_down)
           (snd (get_supplier_data Scenario.env "copper cable" "Pune"
                   (Scenario.start Scenario.completion_down)))
           (Scenario.returned []
              (fst (get_supplier_data Scenario.env "copper cable" "Pune"
                      (Scenario.start Scenario.completion_down))))
           (prompt_layout Scenario.env "copper cable" 500 "Pune" 200000%float
              (map supplier_of
                 [[("title", PyStr "Supplier 1");
                   ("link", PyStr "https://example.com/1");
                   ("snippet", PyStr "Copper cable from supplier 1")];
                  [("title", PyStr "Supplier 2");
                   ("link", PyStr "https://example.com/2");
                   ("snippet", PyStr "Copper cable from supplier 2")];
                  [("title", PyStr "Supplier 3");
                   ("link", PyStr "https://example.com/3");
                   ("snippet", PyStr "Copper cable from supplier 3")]]))
           (PyExc "APIConnectionError" "Connection error.")
           Scenario.completion_down).
  - reflexivity.
  - discriminate.
  - reflexivity.
  - reflexivity.
Defined.

(** The scenario of three results: the body echoes the request. *)
Lemma success_body_is_verbatim_witness :
  exists sups st1 prompt completion text rest w,
    get_supplier_data Scenario.env "copper cable" "Pune"
      (Scenario.start Scenario.normal) = (Ok sups, st1)
    /\ groq_create Scenario.env (completion_request prompt) (world st1)
       = (Ok completion, w)
    /\ choices completion = text :: rest
    /\ Scenario.returned PyNone
         (fst (recommend_procurement Scenario.env Scenario.request
                 (Scenario.start Scenario.normal)))
       = PyDict [("material", PyStr "copper cable");
                 ("location", PyStr "Pune");
                 ("budget", PyFloat 200000%float);
                 ("recommendation", py_of_content text);
                 ("top_suppliers", PyList sups)].
Proof.
  apply (success_body_is_verbatim Scenario.env Scenario.request
           (Scenario.start Scenario.normal)
           (snd (recommend_procurement Scenario.env Scenario.request
                   (Scenario.start Scenario.normal)))).
  reflexivity.
Defined.


(** The scenario of three results and a text that is not empty. *)
Lemma scenario_response_witness :
  exists body st' sups,
    recommend_procurement Scenario.env Scenario.request
      (Scenario.start Scenario.normal) = (Ok body, st')
    /\ py_field body "top_suppliers" = Some (PyList sups)
    /\ List.length sups = 3%nat
    /\ py_field body "material" = Some (PyStr "copper cable")
    /\ py_field body "location" = Some (PyStr "Pune")
    /\ py_field body "budget" = Some (PyFloat 200000%float)
    /\ py_field body "recommendation" = Some (PyStr "Order from Supplier 1.").
Proof.
  apply (scenario_response Scenario.env (Scenario.start Scenario.normal)
           Scenario.three_results Scenario.normal Scenario.normal
           (Scenario.organic_dict "1")
           (Scenario.organic_dict "2")
           (Scenario.organic_dict "3")
           "Order from Supplier 1." []).
  - reflexivity.
  - reflexivity.
  - reflexivity.
  - discriminate.
Defined.

(** C9 as it was stated fails: with three organic results and a completion
    whose text is empty, the handler returns a body whose recommendation
    is the empty string. *)
Lemma recommendation_may_be_empty :
  ~ (forall (env : Environment) (st st' : state env) (results : pydict)
            (w : World env) (d1 d2 d3 : pydict) (body : pyval),
       serpapi_get_dict env
         (SearchParams "copper cable suppliers in Pune" (SERPAPI_KEY env) 5)
         (world st) = (Ok results, w) ->
       dict_lookup "organic_results" results
         = Some (PyList [PyDict d1; PyDict d2; PyDict d3]) ->
       recommend_procurement env Scenario.request st = (Ok body, st') ->
       (exists sups, py_field body "top_suppliers" = Some (PyList sups)
                     /\ List.length sups = 3%nat)
       /\ py_field body "material" = Some (PyStr "copper cable")
       /\ py_field body "location" = Some (PyStr "Pune")
       /\ py_field body "budget" = Some (PyFloat 200000%float)
       /\ exists text, py_field body "recommendation" = Some (PyStr text)
                       /\ text <> "").
Proof.
  intros claim.
  destruct (claim Scenario.env (Scenario.start Scenario.silent)
              (snd (recommend_procurement Scenario.env Scenario.request
                      (Scenario.start Scenario.silent)))
              Scenario.three_results Scenario.silent
              (Scenario.organic_dict "1")
              (Scenario.organic_dict "2")
              (Scenario.organic_dict "3")
              (Scenario.returned PyNone
                 (fst (recommend_procurement Scenario.env Scenario.request
                         (Scenario.start Scenario.silent))))
              eq_refl eq_refl eq_refl)
    as (_ & _ & _ & _ & text & Hrec & Hne).
  cbn in Hrec. inversion Hrec as [Htext]. subst text. now apply Hne.
Qed.

(** Seven results, some without their keys: five entries, None where a
    key is absent, and a prompt all the same. *)
Lemma absent_fields_are_None_witness :
  let sups :=
    Scenario.returned []
      (fst (get_supplier_data Scenario.env "copper cable" "Pune"
              (Scenario.start Scenario.sparse))) in
  List.length sups = 5%nat
  /\ nth_error sups 1
     = Some (PyDict [("title", PyStr "Supplier 2");
                     ("link", PyStr "https://example.com/2");
                     ("snippet", PyNone)])
  /\ nth_error sups 2
     = Some (PyDict [("title", PyNone); ("link", PyNone); ("snippet", PyNone)])
  /\ exists prompt,
       build_prompt Scenario.env "copper cable" 500 "Pune" 200000%float sups
         (Scenario.start Scenario.sparse)
       = (Ok prompt, Scenario.start Scenario.sparse).
Proof.
  intros sups.
  destruct (absent_fields_are_None Scenario.env "copper cable" "Pune"
              (Scenario.start Scenario.sparse)
              (snd (get_supplier_data Scenario.env "copper cable" "Pune"
                      (Scenario.start Scenario.sparse)))
              sups eq_refl)
    as (results & w & ds & _ & _ & _ & _ & Hprompt & _).
  split; [reflexivity|]. split; [reflexivity|]. split; [reflexivity|].
  eexists. apply Hprompt.
Defined.

(** ** Runs of the scripted environment *)

Example scenario_calls :
  calls (snd (recommend_procurement Scenario.env Scenario.request
                (Scenario.start Scenario.normal)))
  = [SearchCall
       (SearchParams "copper cable suppliers in Pune" (Some "serp-key") 5);
     CompletionCall
       (CompletionParams "llama-3.1-8b-instant"
          [ChatMessage "system" "You are an expert AI procurement assistant.";
           ChatMessage "user"
             (String.concat nl
                ["";
                 "    You are an AI procurement strategist for POWERGRID.";
                 "    Analyze the following inputs and recommend a procurement plan.";
                 "";
                 "    Material: copper cable";
                 "    Required Quantity: 500";
                 "    Project Location: Pune";
                 "    Budget: â‚¹200000.0";
                 "";
                 "    Available supplier data:";
                 "    - Supplier 1: https://example.com/1 (Copper cable from supplier 1)";
                 "- Supplier 2: https://example.com/2 (Copper cable from supplier 2)";
                 "- Supplier 3: https://example.com/3 (Copper cable from supplier 3)";
                 "";
                 "    Provide:";
                 "    1. Top 3 suppliers ranked by relevance.";
                 "    2. Recommended order quantity split (if applicable).";
                 "    3. Estimated total cost and delivery timeframe.";
                 "    4. Any risk factors or negotiation suggestions.";
                 "    "])]
          0.7%float 800)].
Proof. reflexivity. Qed.

Example sparse_bullets :
  supplier_bullets Scenario.env
    (map supplier_of
       [[("title", PyStr "Supplier 2"); ("link", PyStr "https://example.com/2")];
        []])
  = ["- Supplier 2: https://example.com/2 (None)"; "- None: None (None)"].
Proof. reflexivity. Qed.

Example null_results_is_500 :
  fst (recommend_procurement Scenario.env Scenario.request
         (Scenario.start Scenario.null_results))
  = Raise (HTTPException 500
             "SERPAPI error: 'NoneType' object is not subscriptable").
Proof. reflexivity. Qed.

Example string_result_is_500 :
  fst (recommend_procurement Scenario.env Scenario.request
         (Scenario.start Scenario.string_result))
  = Raise (HTTPException 500
             "SERPAPI error: 'str' object has no attribute 'get'").
Proof. reflexivity. Qed.

Example no_choices_is_uncaught :
  recommend_procurement Scenario.env Scenario.request
    (Scenario.start Scenario.no_choices)
  = (Raise (Uncaught (PyExc "IndexError" "list index out of range")),
     State (Scenario.no_choices : World Scenario.env)
       (calls (snd (recommend_procurement Scenario.env Scenario.request
                      (Scenario.start Scenario.normal))))).
Proof. reflexivity. Qed.

Example missing_key_is_KeyError :
  fst (build_prompt Scenario.env "copper cable" 500 "Pune" 200000%float
         [PyDict [("title", PyStr "Supplier 1")]]
         (Scenario.start Scenario.normal))
  = Raise (PyExc "KeyError" "'link'").
Proof. reflexivity. Qed.

(** ** Further properties of the lookup, the generator and the handler *)

Section Further.

Variable env : Environment.

Lemma py_slice_to_length (v : pyval) (n : nat) (items : list pyval) :
  py_slice_to v n = Ok items -> (List.length items <= n)%nat.
Proof.
  destruct v; cbn; intros H; inversion H; subst;
    rewrite length_firstn; apply Nat.le_min_l.
Qed.

Lemma get_supplier_data_raise_inv (material location : string)
    (st st1 : state env) (e : handler_exn) :
  get_supplier_data env material location st = (Raise e, st1) ->
  exists cause, e = upstream_error cause.
Proof.
  intros H. rewrite get_supplier_data_unfold in H. cbn zeta in H.
  destruct (serpapi_get_dict env _ (world st)) as [[results|e0] w].
  - destruct (py_slice_to _ 5) as [items|e1].
    + destruct (for_each (supplier_entry env) items _) as [[sups|e2] st2];
        inversion H; subst. now exists e2.
    + inversion H; subst. now exists e1.
  - inversion H; subst. now exists e0.
Qed.


(** A list the lookup returns has at most five entries, and each entry is
    a dict with the keys title, link and snippet, in this order, and no
    other key, whatever else the organic result held. *)
Theorem lookup_returns_at_most_five (material location : string)
    (st st1 : state env) (sups : list pyval) :
  get_supplier_data env material location st = (Ok sups, st1) ->
  (List.length sups <= 5)%nat
  /\ Forall (fun s => exists t l sn,
               s = PyDict [("title", t); ("link", l); ("snippet", sn)]) sups.
Proof.
  intros Hg.
  destruct (get_supplier_data_inv _ _ _ _ _ _ Hg)
    as (results & w & ds & _ & Hi & -> & _).
  split.
  - apply py_slice_to_length in Hi. now rewrite length_map in *.
  - apply Forall_forall. intros s Hin. apply in_map_iff in Hin as (d & <- & _).
    unfold supplier_dict. eauto.
Qed.

(** When organic_results holds something that is neither a list nor a
    string (null, a number, a boolean, an object), the handler answers
    with the lookup's 500, not with 404, and the completion provider is
    not called. *)
Theorem unsliceable_results_are_500 (request : ProcurementRequest)
    (st : state env) (results : pydict) (w : World env) (v : pyval) :
  serpapi_get_dict env
    (search_request env (material_name request) (location request))
    (world st) = (Ok results, w) ->
  dict_lookup "organic_results" results = Some v ->
  (forall l, v <> PyList l) ->
  (forall s, v <> PyStr s) ->
  exists text,
    recommend_procurement env request st
    = (Raise (HTTPException 500 ("SERPAPI error: " ++ text)),
       State w (calls st ++
                  [SearchCall (search_request env (material_name request)
                                 (location request))])).
Proof.
  intros Hs Ho Hl Hstr.
  rewrite recommend_procurement_unfold, get_supplier_data_unfold. cbn zeta.
  rewrite Hs. unfold dict_get. rewrite Ho.
  destruct v; cbn [py_slice_to];
    try (eexists; reflexivity).
  - now destruct (Hstr s).
  - now destruct (Hl l).
Qed.

Lemma supplier_entry_not_object (v : pyval) (st : state env) :
  (forall d, v <> PyDict d) ->
  supplier_entry env v st
  = (Raise (PyExc "AttributeError"
              ("'" ++ type_name v ++ "' object has no attribute 'get'")), st).
Proof. intros Hv. destruct v; try reflexivity. now destruct (Hv d). Qed.

Lemma for_each_supplier_entry_stops (ds : list pydict) (v : pyval)
    (rest : list pyval) (st : state env) :
  (forall d, v <> PyDict d) ->
  for_each (supplier_entry env) (map PyDict ds ++ v :: rest)%list st
  = (Raise (PyExc "AttributeError"
              ("'" ++ type_name v ++ "' object has no attribute 'get'")), st).
Proof.
  intros Hv. induction ds as [|d ds IH]; cbn [map app for_each].
  - unfold bind at 1. now rewrite supplier_entry_not_object.
  - unfold bind at 1. rewrite supplier_entry_dict.
    unfold bind at 1. now rewrite IH.
Qed.

Lemma firstn_through (ds : list pydict) (v : pyval) (rest : list pyval) :
  (List.length ds < 5)%nat ->
  firstn 5 (map PyDict ds ++ v :: rest)%list
  = (map PyDict ds ++ v :: firstn (4 - List.length ds) rest)%list.
Proof.
  unfold pydict in *. intros Hlen. rewrite firstn_app, length_map.
  rewrite (firstn_all2 (map PyDict ds)) by (rewrite length_map; lia).
  replace (5 - List.length ds)%nat with (S (4 - List.length ds)) by lia.
  reflexivity.
Qed.

(** When one of the first five organic results is not an object, the
    lookup gives no partial list: the handler answers 500 with the text of
    the AttributeError that the first such item causes, and the completion
    provider is not called. *)
Theorem non_object_result_is_500 (request : ProcurementRequest)
    (st : state env) (results : pydict) (w : World env)
    (ds : list pydict) (v : pyval) (rest : list pyval) :
  serpapi_get_dict env
    (search_request env (material_name request) (location request))
    (world st) = (Ok results, w) ->
  dict_lookup "organic_results" results
    = Some (PyList (map PyDict ds ++ v :: rest)%list) ->
  (List.length ds < 5)%nat ->
  (forall d, v <> PyDict d) ->
  recommend_procurement env request st
  = (Raise (HTTPException 500
              ("SERPAPI error: '" ++ type_name v
                 ++ "' object has no attribute 'get'")),
     State w (calls st ++
                [SearchCall (search_request env (material_name request)
                               (location request))])).
Proof.
  intros Hs Ho Hlen Hv.
  rewrite recommend_procurement_unfold, get_supplier_data_unfold. cbn zeta.
  rewrite Hs. unfold dict_get. rewrite Ho. cbn [py_slice_to].
  rewrite firstn_through by exact Hlen.
  rewrite for_each_supplier_entry_stops by exact Hv.
  reflexivity.
Qed.

(** Organic results after the fifth are never read: whatever follows five
    objects, malformed items included, the lookup returns the entries of
    those five. *)
Theorem results_after_fifth_are_ignored (material location : string)
    (st : state env) (results : pydict) (w : World env)
    (ds : list pydict) (others : list pyval) :
  serpapi_get_dict env (search_request env material location) (world st)
    = (Ok results, w) ->
  dict_lookup "organic_results" results
    = Some (PyList (map PyDict ds ++ others)%list) ->
  (5 <= List.length ds)%nat ->
  get_supplier_data env material location st
  = (Ok (map (fun d => supplier_dict (supplier_of d)) (firstn 5 ds)),
     State w (calls st ++ [SearchCall (search_request env material location)])).
Proof.
  intros Hs Ho Hlen.
  rewrite get_supplier_data_unfold. cbn zeta.
  rewrite Hs. unfold dict_get. rewrite Ho. cbn [py_slice_to].
  unfold pydict in *. rewrite firstn_app, length_map.
  replace (5 - List.length ds)%nat with 0%nat by lia.
  rewrite firstn_O, app_nil_r, firstn_map, for_each_supplier_entry.
  reflexivity.
Qed.

(** The handler once the lookup has returned entries. *)
Lemma recommend_procurement_after_lookup (request : ProcurementRequest)
    (st st1 : state env) (rs : list SupplierResult) :
  get_supplier_data env (material_name request) (location request) st
    = (Ok (map supplier_dict rs), st1) ->
  rs <> [] ->
  recommend_procurement env request st =
  let p := completion_request
             (prompt_layout env (material_name request) (quantity request)
                (location request) (budget request) rs) in
  match groq_create env p (world st1) with
  | (Ok c, w) =>
      let st2 := State w (calls st1 ++ [CompletionCall p]) in
      match choices c with
      | text :: _ =>
          (Ok (response_body request (py_of_content text)
                 (map supplier_dict rs)), st2)
      | [] =>
          (Raise (Uncaught (PyExc "IndexError" "list index out of range")), st2)
      end
  | (Raise e, w) =>
      (Raise (Uncaught e), State w (calls st1 ++ [CompletionCall p]))
  end.
Proof.
  intros Hg Hne. rewrite recommend_procurement_unfold, Hg.
  destruct rs as [|r rs']; [contradiction|].
  cbn [map].
  change (supplier_dict r :: map supplier_dict rs')
    with (map supplier_dict (r :: rs')).
  rewrite generate_recommendation_unfold. cbn zeta.
  destruct (groq_create env _ (world st1)) as [[c|e] w]; [|reflexivity].
  destruct (choices c); reflexivity.
Qed.

Lemma lookup_of_objects (material location : string) (st : state env)
    (results : pydict) (w : World env) (ds : list pydict) :
  serpapi_get_dict env (search_request env material location) (world st)
    = (Ok results, w) ->
  dict_lookup "organic_results" results = Some (PyList (map PyDict ds)) ->
  ds <> [] ->
  get_supplier_data env material location st
  = (Ok (map supplier_dict (map supplier_of (firstn 5 ds))),
     State w (calls st ++ [SearchCall (search_request env material location)]))
  /\ map supplier_of (firstn 5 ds) <> [].
Proof.
  intros Hs Ho Hne. split.
  - rewrite <- entries_as_supplier_dicts.
    apply (get_supplier_data_organic env _ _ st results w ds); [exact Hs|].
    unfold dict_get. now rewrite Ho.
  - destruct ds; [contradiction | discriminate].
Qed.

(** When the search answers with at least one organic result, all of them
    objects, and the completion has a first choice, the handler returns
    the body; it has made two calls, the search and then the completion
    on the world the search left, and the prompt it sent lists the first
    five results, the same entries that the body carries. *)
Theorem handler_succeeds (request : ProcurementRequest) (st : state env)
    (results : pydict) (w1 w2 : World env) (ds : list pydict)
    (completion : chat_completion) (text : option string)
    (rest : list (option string)) :
  let search := search_request env (material_name request) (location request) in
  let prompt :=
    prompt_layout env (material_name request) (quantity request)
      (location request) (budget request) (map supplier_of (firstn 5 ds)) in
  serpapi_get_dict env search (world st) = (Ok results, w1) ->
  dict_lookup "organic_results" results = Some (PyList (map PyDict ds)) ->
  ds <> [] ->
  groq_create env (completion_request prompt) w1 = (Ok completion, w2) ->
  choices completion = text :: rest ->
  recommend_procurement env request st
  = (Ok (PyDict [("material", PyStr (material_name request));
                 ("location", PyStr (location request));
                 ("budget", PyFloat (budget request));
                 ("recommendation", py_of_content text);
                 ("top_suppliers",
                  PyList (map supplier_dict (map supplier_of (firstn 5 ds))))]),
     State w2 (calls st ++ [SearchCall search;
                            CompletionCall (completion_request prompt)])).
Proof.
  intros search prompt Hs Ho Hne Hc Hch.
  destruct (lookup_of_objects _ _ st results w1 ds Hs Ho Hne) as [Hg Hrs].
  rewrite (recommend_procurement_after_lookup request st _ _ Hg Hrs).
  cbn zeta. cbn [world calls]. fold prompt. rewrite Hc, Hch.
  rewrite <- app_assoc. reflexivity.
Qed.

(** When the completion comes back without any choice, the handler raises
    the IndexError of [choices[0]] uncaught, after both calls were made. *)
Theorem empty_choices_is_uncaught (request : ProcurementRequest)
    (st : state env) (results : pydict) (w1 w2 : World env)
    (ds : list pydict) (completion : chat_completion) :
  let search := search_request env (material_name request) (location request) in
  let prompt :=
    prompt_layout env (material_name request) (quantity request)
      (location request) (budget request) (map supplier_of (firstn 5 ds)) in
  serpapi_get_dict env search (world st) = (Ok results, w1) ->
  dict_lookup "organic_results" results = Some (PyList (map PyDict ds)) ->
  ds <> [] ->
  groq_create env (completion_request prompt) w1 = (Ok completion, w2) ->
  choices completion = [] ->
  recommend_procurement env request st
  = (Raise (Uncaught (PyExc "IndexError" "list index out of range")),
     State w2 (calls st ++ [SearchCall search;
                            CompletionCall (completion_request prompt)])).
Proof.
  intros search prompt Hs Ho Hne Hc Hch.
  destruct (lookup_of_objects _ _ st results w1 ds Hs Ho Hne) as [Hg Hrs].
  rewrite (recommend_procurement_after_lookup request st _ _ Hg Hrs).
  cbn zeta. cbn [world calls]. fold prompt. rewrite Hc, Hch.
  rewrite <- app_assoc. reflexivity.
Qed.

(** Every run of the handler ends in one of four ways: 404 after the
    search alone; the lookup's 500 after the search alone; or, after the
    search and one completion call, a body or an uncaught exception.  So
    the completion provider is called at most once and never after a
    failed or empty lookup, no call is repeated, and nothing is raised
    uncaught before the completion call. *)
Theorem handler_outcomes (request : ProcurementRequest) (st : state env) :
  let search :=
    SearchCall (search_request env (material_name request)
                  (location request)) in
  exists w,
    recommend_procurement env request st
      = (Raise (HTTPException 404 "No suppliers found."),
         State w (calls st ++ [search]))
    \/ (exists cause,
          recommend_procurement env request st
          = (Raise (HTTPException 500 ("SERPAPI error: " ++ exc_text cause)),
             State w (calls st ++ [search])))
    \/ (exists prompt outcome,
          recommend_procurement env request st
          = (outcome,
             State w (calls st ++
                        [search; CompletionCall (completion_request prompt)]))
          /\ ((exists body, outcome = Ok body)
              \/ (exists e, outcome = Raise (Uncaught e)))).
Proof.
  intros search.
  destruct (get_supplier_data_calls env (material_name request)
              (location request) st) as [w Hw].
  destruct (get_supplier_data env (material_name request)
              (location request) st) as [[sups|e] st1] eqn:Hg;
    cbn [snd] in Hw; subst st1.
  - destruct (get_supplier_data_inv _ _ _ _ _ _ Hg)
      as (results & w0 & ds & _ & _ & Hsups & _).
    destruct ds as [|d ds'].
    + exists w. left. rewrite recommend_procurement_unfold, Hg, Hsups.
      reflexivity.
    + rewrite Hsups, entries_as_supplier_dicts in Hg.
      assert (Hne : map supplier_of (d :: ds') <> []) by discriminate.
      rewrite (recommend_procurement_after_lookup request st _ _ Hg Hne).
      cbn zeta. cbn [world calls].
      destruct (groq_create env _ w) as [[c|e] w2].
      * exists w2. right. right. rewrite <- app_assoc.
        destruct (choices c); eexists; eexists;
          (split; [reflexivity | eauto]).
      * exists w2. right. right. eexists. eexists.
        rewrite <- app_assoc. split; [reflexivity | eauto].
  - exists w. right. left.
    destruct (get_supplier_data_raise_inv _ _ _ _ _ Hg) as [cause ->].
    exists cause. rewrite recommend_procurement_unfold, Hg. reflexivity.
Qed.

(** The prompt shows what the client gets: when the handler returns a
    body, its top_suppliers are the very entries, in the same order,
    whose bullets made up the prompt of the one completion call. *)
Theorem prompt_shows_returned_suppliers (request : ProcurementRequest)
    (st st' : state env) (body : pyval) :
  recommend_procurement env request st = (Ok body, st') ->
  exists rs,
    py_field body "top_suppliers" = Some (PyList (map supplier_dict rs))
    /\ filter is_completion (calls st')
       = (filter is_completion (calls st) ++
          [CompletionCall
             (completion_request
                (prompt_layout env (material_name request) (quantity request)
                   (location request) (budget request) rs))])%list.
Proof.
  intros Hr.
  destruct (get_supplier_data env (material_name request)
              (location request) st) as [[sups|e] st1] eqn:Hg.
  2:{ rewrite recommend_procurement_unfold, Hg in Hr. discriminate. }
  destruct (get_supplier_data_inv _ _ _ _ _ _ Hg)
    as (results & w0 & ds & _ & _ & Hsups & Hst1).
  destruct ds as [|d ds'].
  { rewrite recommend_procurement_unfold, Hg, Hsups in Hr. discriminate. }
  rewrite Hsups, entries_as_supplier_dicts in Hg.
  assert (Hne : map supplier_of (d :: ds') <> []) by discriminate.
  rewrite (recommend_procurement_after_lookup request st _ _ Hg Hne) in Hr.
  cbn zeta in Hr.
  destruct (groq_create env _ (world st1)) as [[c|e] w2]; [|discriminate].
  destruct (choices c); [discriminate|].
  inversion Hr; subst body st'. exists (map supplier_of (d :: ds')).
  split; [reflexivity|].
  cbn [calls]. rewrite Hst1. cbn [calls]. rewrite !filter_app. cbn [filter is_completion].
  now rewrite app_nil_r.
Qed.

(** *** The generator on its own *)



End Further.

(** ** The further properties at the scripted environment *)


Lemma lookup_returns_at_most_five_witness :
  let sups :=
    Scenario.returned []
      (fst (get_supplier_data Scenario.env "copper cable" "Pune"
              (Scenario.start Scenario.sparse))) in
  (List.length sups <= 5)%nat
  /\ Forall (fun s => exists t l sn,
               s = PyDict [("title", t); ("link", l); ("snippet", sn)]) sups.
Proof.
  apply (lookup_returns_at_most_five Scenario.env "copper cable" "Pune"
           (Scenario.start Scenario.sparse)
           (snd (get_supplier_data Scenario.env "copper cable" "Pune"
                   (Scenario.start Scenario.sparse)))).
  reflexivity.
Defined.

Lemma unsliceable_results_are_500_witness :
  exists text,
    recommend_procurement Scenario.env Scenario.request
      (Scenario.start Scenario.null_results)
    = (Raise (HTTPException 500 ("SERPAPI error: " ++ text)),
       State (Scenario.null_results : World Scenario.env)
         [SearchCall (SearchParams "copper cable suppliers in Pune"
                        (Some "serp-key") 5)]).
Proof.
  apply (unsliceable_results_are_500 Scenario.env Scenario.request
           (Scenario.start Scenario.null_results)
           [("organic_results", PyNone)] Scenario.null_results PyNone).
  - reflexivity.
  - reflexivity.
  - discriminate.
  - discriminate.
Defined.

Lemma non_object_result_is_500_witness :
  recommend_procurement Scenario.env Scenario.request
    (Scenario.start Scenario.second_is_number)
  = (Raise (HTTPException 500
              "SERPAPI error: 'int' object has no attribute 'get'"),
     State (Scenario.second_is_number : World Scenario.env)
       [SearchCall (SearchParams "copper cable suppliers in Pune"
                      (Some "serp-key") 5)]).
Proof.
  apply (non_object_result_is_500 Scenario.env Scenario.request
           (Scenario.start Scenario.second_is_number)
           [("organic_results",
             PyList (map PyDict [Scenario.organic_dict "1"]
                     ++ PyInt 7 :: [Scenario.organic_result "3"])%list)]
           Scenario.second_is_number
           [Scenario.organic_dict "1"] (PyInt 7)
           [Scenario.organic_result "3"]).
  - reflexivity.
  - reflexivity.
  - simpl. lia.
  - discriminate.
Defined.

Lemma results_after_fifth_are_ignored_witness :
  get_supplier_data Scenario.env "copper cable" "Pune"
    (Scenario.start Scenario.long)
  = (Ok (map (fun d => supplier_dict (supplier_of d))
           [Scenario.organic_dict "1"; Scenario.organic_dict "2";
            Scenario.organic_dict "3"; Scenario.organic_dict "4";
            Scenario.organic_dict "5"]),
     State (Scenario.long : World Scenario.env)
       [SearchCall (SearchParams "copper cable suppliers in Pune"
                      (Some "serp-key") 5)]).
Proof.
  apply (results_after_fifth_are_ignored Scenario.env "copper cable" "Pune"
           (Scenario.start Scenario.long) Scenario.junk_after_five
           Scenario.long
           [Scenario.organic_dict "1"; Scenario.organic_dict "2";
            Scenario.organic_dict "3"; Scenario.organic_dict "4";
            Scenario.organic_dict "5"]
           [PyNone; PyStr "advertisement"]).
  - reflexivity.
  - reflexivity.
  - simpl. lia.
Defined.

Lemma handler_succeeds_witness :
  recommend_procurement Scenario.env Scenario.request
    (Scenario.start Scenario.normal)
  = (Ok (PyDict [("material", PyStr "copper cable");
                 ("location", PyStr "Pune");
                 ("budget", PyFloat 200000%float);
                 ("recommendation", PyStr "Order from Supplier 1.");
                 ("top_suppliers",
                  PyList (map supplier_dict
                            (map supplier_of
                               (firstn 5 Scenario.three_dicts))))]),
     State (Scenario.normal : World Scenario.env)
       ([] ++
        [SearchCall (search_request Scenario.env "copper cable" "Pune");
         CompletionCall
           (completion_request
              (prompt_layout Scenario.env "copper cable" 500 "Pune"
                 200000%float
                 (map supplier_of (firstn 5 Scenario.three_dicts))))])%list).
Proof.
  apply (handler_succeeds Scenario.env Scenario.request
           (Scenario.start Scenario.normal) Scenario.three_results
           Scenario.normal Scenario.normal Scenario.three_dicts
           (Scenario.answer (Some "Order from Supplier 1."))
           (Some "Order from Supplier 1.") []).
  - reflexivity.
  - reflexivity.
  - discriminate.
  - reflexivity.
  - reflexivity.
Defined.

Lemma empty_choices_is_uncaught_witness :
  recommend_procurement Scenario.env Scenario.request
    (Scenario.start Scenario.no_choices)
  = (Raise (Uncaught (PyExc "IndexError" "list index out of range")),
     State (Scenario.no_choices : World Scenario.env)
       ([] ++
        [SearchCall (search_request Scenario.env "copper cable" "Pune");
         CompletionCall
           (completion_request
              (prompt_layout Scenario.env "copper cable" 500 "Pune"
                 200000%float
                 (map supplier_of (firstn 5 Scenario.three_dicts))))])%list).
Proof.
  apply (empty_choices_is_uncaught Scenario.env Scenario.request
           (Scenario.start Scenario.no_choices) Scenario.three_results
           Scenario.no_choices Scenario.no_choices Scenario.three_dicts
           (ChatCompletion [])).
  - reflexivity.
  - reflexivity.
  - discriminate.
  - reflexivity.
  - reflexivity.
Defined.

Lemma prompt_shows_returned_suppliers_witness :
  exists rs,
    py_field
      (Scenario.returned PyNone
         (fst (recommend_procurement Scenario.env Scenario.request
                 (Scenario.start Scenario.normal))))
      "top_suppliers" = Some (PyList (map supplier_dict rs))
    /\ filter is_completion
         (calls (snd (recommend_procurement Scenario.env Scenario.request
                        (Scenario.start Scenario.normal))))
       = ([] ++
          [CompletionCall
             (completion_request
                (prompt_layout Scenario.env "copper cable" 500 "Pune"
                   200000%float rs))])%list.
Proof.
  apply (prompt_shows_returned_suppliers Scenario.env Scenario.request
           (Scenario.start Scenario.normal)
           (snd (recommend_procurement Scenario.env Scenario.request
                   (Scenario.start Scenario.normal)))
           (Scenario.returned PyNone
              (fst (recommend_procurement Scenario.env Scenario.request
                      (Scenario.start Scenario.normal))))).
  reflexivity.
Defined.

